(** * local-server.py: a static file server with fixed security headers

    The program subclasses [http.server.SimpleHTTPRequestHandler], overriding
    [end_headers] and [guess_type], and serves the working directory on a
    fixed port through [socketserver.TCPServer].

    The two overrides are written once, against the interface of the base
    class, and are then run under interpretations of that interface: one
    that records which base methods are called, one that keeps the header
    buffer and the bytes written to the client, and one that follows the
    library's own methods, request version included.  The module top level is a
    program in a small monad of standard output, bind attempts and uncaught
    exceptions. *)

From Stdlib Require Import String Ascii List ZArith Lia Bool.
From Stdlib Require Import Numbers.DecimalString.
From ExtLib Require Import Structures.Monad Data.Monads.StateMonad.
Import ListNotations.
Import MonadNotation.
Local Open Scope string_scope.
Local Open Scope monad_scope.

(** ** Python strings

    A [str] (and a [bytes]) is the sequence of its characters; a character
    outside ASCII stands as its UTF-8 bytes, which no ASCII literal can match
    in part. *)
Module PyStr.

(** [s.endswith(suffix)]: the last [len(suffix)] characters of [s] are
    compared with [suffix]; a longer [suffix] never matches. *)
Definition endswith (s suffix : string) : bool :=
  let n := String.length s in
  let m := String.length suffix in
  (m <=? n)%nat && String.eqb (substring (n - m) m s) suffix.

(** [s.rfind(c)] for a one-character [c]: the highest index holding [c],
    or [-1]. *)
Fixpoint rfind_from (i : Z) (c : ascii) (s : string) : Z :=
  match s with
  | EmptyString => (-1)%Z
  | String a s' =>
      let r := rfind_from (i + 1) c s' in
      if (0 <=? r)%Z then r else if Ascii.eqb a c then i else (-1)%Z
  end.

Definition rfind (s : string) (c : ascii) : Z := rfind_from 0 c s.

(** [s[i:]] for [0 <= i]. *)
Definition slice_from (i : nat) (s : string) : string :=
  substring i (String.length s - i) s.

(** [b"".join(parts)]. *)
Definition join (parts : list string) : string := String.concat "" parts.

(** [str(n)] and the [{n}] field of an f-string, for an [int]. *)
Definition str_of_int (n : Z) : string := NilZero.string_of_int (Z.to_int n).

(** [s.lower()] on ASCII letters. *)
Definition lower_char (a : ascii) : ascii :=
  let n := nat_of_ascii a in
  if ((65 <=? n) && (n <=? 90))%nat then ascii_of_nat (n + 32) else a.

Fixpoint lower (s : string) : string :=
  match s with
  | EmptyString => EmptyString
  | String a s' => String (lower_char a) (lower s')
  end.

Definition CRLF : string := String "013" (String "010" EmptyString).

(** [len(s)], the number of characters of a [str]: in UTF-8, the bytes that
    do not continue a character (those not of the form [10xxxxxx]). *)
Definition is_continuation (a : ascii) : bool :=
  let n := nat_of_ascii a in
  ((128 <=? n) && (n <? 192))%nat.

Fixpoint len (s : string) : nat :=
  match s with
  | EmptyString => 0
  | String a s' => (if is_continuation a then 0 else 1) + len s'
  end.

End PyStr.

(** ** The process and its surroundings

    What a run can observe of the machine it runs on.  Python code may read
    any of it at any point ([sys.argv], [os.environ], [os.getcwd], the file
    system, the sockets of the host), so every operation below receives it. *)
Record System : Type := {
  argv : list string;
  environ : list (string * string);
  cwd : string;
  files : list (string * string);
  ports_in_use : list Z;
  interrupt : bool
}.

(** ** The base class [http.server.SimpleHTTPRequestHandler]

    The library class is not part of the repository; the overrides use three
    of its methods.  [super_end_headers] and [super_guess_type] are the base
    versions of the two overridden methods, reached through [super()]. *)
Class SimpleHTTPRequestHandler (M : Type -> Type) : Type := {
  send_header : string -> string -> M unit;
  super_end_headers : M unit;
  super_guess_type : string -> M string
}.

(** ** [class MyHTTPRequestHandler(http.server.SimpleHTTPRequestHandler)] *)
Section MyHTTPRequestHandler.

Context {M : Type -> Type} {Monad_M : Monad M}
        {Base : SimpleHTTPRequestHandler M}.

Definition end_headers : M unit :=
  send_header "X-Content-Type-Options" "nosniff" ;;
  send_header "X-Frame-Options" "DENY" ;;
  send_header "X-XSS-Protection" "1; mode=block" ;;
  super_end_headers.

Definition guess_type (path : string) : M string :=
  mimetype <- super_guess_type path ;;
  if PyStr.endswith path ".js" then
    ret "application/javascript"
  else
    ret mimetype.

End MyHTTPRequestHandler.

(** ** First reading of the base class: the calls made

    Each base method only records that it was called; [super_guess_type]
    answers from a given table. *)
Module Recorded.

Inductive call : Type :=
| Send_header (keyword value : string)
| Super_end_headers
| Super_guess_type (path : string).

Definition Calls (A : Type) : Type := (list call * A)%type.

#[export] Instance Monad_Calls : Monad Calls := {
  ret := fun _ a => ([], a);
  bind := fun _ _ c f =>
    let (l, a) := c in let (l', b) := f a in ((l ++ l')%list, b)
}.

Definition Base (table : string -> string) :
  SimpleHTTPRequestHandler Calls := {|
  send_header := fun keyword value => ([Send_header keyword value], tt);
  super_end_headers := ([Super_end_headers], tt);
  super_guess_type := fun path => ([Super_guess_type path], table path)
|}.

Definition calls {A : Type} (c : Calls A) : list call := fst c.

Definition is_super_end_headers (c : call) : bool :=
  match c with Super_end_headers => true | _ => false end.

End Recorded.

(** ** Second reading of the base class: the bytes on the connection

    The handler of one connection holds the buffer of queued header lines
    and the stream to the client; [World] adds the machine it runs on. *)
Module Wire.

Record Connection : Type := {
  _headers_buffer : list string;
  wfile : string
}.

Record World : Type := {
  sys : System;
  self : Connection
}.

Definition header_line (keyword value : string) : string :=
  keyword ++ ": " ++ value ++ PyStr.CRLF.

Definition queue (line : string) (w : World) : World :=
  {| sys := sys w;
     self := {| _headers_buffer := _headers_buffer (self w) ++ [line];
                wfile := wfile (self w) |} |}.

Definition flush_headers (w : World) : World :=
  {| sys := sys w;
     self := {| _headers_buffer := [];
                wfile := wfile (self w)
                         ++ PyStr.join (_headers_buffer (self w)) |} |}.

Definition update (f : World -> World) : state World unit :=
  mkState (fun w => (tt, f w)).

(** Modelled from the spec: the methods of the library class
    [http.server.SimpleHTTPRequestHandler], which is outside the repository.
    The base handler queues its header lines, and its header-finalization
    emits the blank line terminating the header block: [send_header] appends
    the line [keyword: value] to the buffer, the base [end_headers] appends
    the blank line and writes the whole buffer to the client.  The base
    [guess_type] is the library's type inference, any function of the path
    and of what it consults on the machine.  The library's mode for HTTP/0.9
    requests, in which a response has no header section at all, is left
    out here and is the subject of the third reading. *)
Definition Base (mimetypes : System -> string -> string) :
  SimpleHTTPRequestHandler (state World) := {|
  send_header := fun keyword value =>
    update (queue (header_line keyword value));
  super_end_headers :=
    update (queue PyStr.CRLF) ;; update flush_headers;
  super_guess_type := fun path =>
    mkState (fun w => (mimetypes (sys w) path, w))
|}.

(** The bytes a step of the handler added to the connection. *)
Definition written (before after : World) : string :=
  PyStr.slice_from (String.length (wfile (self before))) (wfile (self after)).

End Wire.

(** ** Third reading of the base class: the library's own methods

    [send_header], [end_headers] and [flush_headers] of
    [http.server.BaseHTTPRequestHandler] as the Python library has them
    (http/server.py), with the request version they test.  A handler starts
    every request at version [HTTP/0.9] and keeps it unless the request line
    ends in a valid version: so for a request line of two words, and during
    the error replies to a request line of one word or with a bad version.
    In that mode the library writes no status line and no header.

    [_headers_buffer] is an attribute the library creates on first use:
    [None] stands for a handler that does not have it yet.  The lines are
    encoded as latin-1, which leaves the ASCII headers of this program as
    they are. *)
Module Library.

Record Handler : Type := {
  request_version : string;
  _headers_buffer : option (list string);
  wfile : string;
  close_connection : bool
}.

Inductive outcome (A : Type) : Type :=
| Returned (a : A)
| AttributeError.
Arguments Returned {A} a.
Arguments AttributeError {A}.

Definition Method (A : Type) : Type := Handler -> outcome A * Handler.

#[export] Instance Monad_Method : Monad Method := {
  ret := fun _ a h => (Returned a, h);
  bind := fun _ _ c f h =>
    match c h with
    | (Returned a, h') => f a h'
    | (AttributeError, h') => (AttributeError, h')
    end
}.

(** The queued lines, none when the attribute is not there. *)
Definition queued (h : Handler) : list string :=
  match _headers_buffer h with
  | Some buffer => buffer
  | None => []
  end.

Definition set_buffer (buffer : list string) (h : Handler) : Handler :=
  {| request_version := request_version h;
     _headers_buffer := Some buffer;
     wfile := wfile h;
     close_connection := close_connection h |}.

Definition set_close_connection (b : bool) (h : Handler) : Handler :=
  {| request_version := request_version h;
     _headers_buffer := _headers_buffer h;
     wfile := wfile h;
     close_connection := b |}.

Definition write (data : string) (h : Handler) : Handler :=
  {| request_version := request_version h;
     _headers_buffer := _headers_buffer h;
     wfile := wfile h ++ data;
     close_connection := close_connection h |}.

Definition lib_send_header (keyword value : string) : Method unit :=
  fun h =>
    let h1 :=
      if negb (String.eqb (request_version h) "HTTP/0.9") then
        set_buffer (queued h ++ [keyword ++ ": " ++ value ++ PyStr.CRLF]) h
      else h in
    let h2 :=
      if String.eqb (PyStr.lower keyword) "connection" then
        if String.eqb (PyStr.lower value) "close" then
          set_close_connection true h1
        else if String.eqb (PyStr.lower value) "keep-alive" then
          set_close_connection false h1
        else h1
      else h1 in
    (Returned tt, h2).

Definition lib_flush_headers : Method unit :=
  fun h =>
    match _headers_buffer h with
    | Some buffer => (Returned tt, set_buffer [] (write (PyStr.join buffer) h))
    | None => (Returned tt, h)
    end.

Definition lib_end_headers : Method unit :=
  fun h =>
    if negb (String.eqb (request_version h) "HTTP/0.9") then
      match _headers_buffer h with
      | Some buffer => lib_flush_headers (set_buffer (buffer ++ [PyStr.CRLF]) h)
      | None => (AttributeError, h)
      end
    else (Returned tt, h).

Definition Base (table : string -> string) :
  SimpleHTTPRequestHandler Method := {|
  send_header := lib_send_header;
  super_end_headers := lib_end_headers;
  super_guess_type := fun path h => (Returned (table path), h)
|}.

(** The bytes a method added to the connection. *)
Definition written (before after : Handler) : string :=
  PyStr.slice_from (String.length (wfile before)) (wfile after).

(** The handler after the request line [GET /index.html], which names no
    version: nothing queued, nothing written, the connection to be closed. *)
Definition http09_handler : Handler :=
  {| request_version := "HTTP/0.9";
     _headers_buffer := None;
     wfile := "";
     close_connection := true |}.

(** A handler on which the base handler has queued the given head, for a
    request of version [HTTP/1.0]. *)
Definition http10_handler (head : list string) : Handler :=
  {| request_version := "HTTP/1.0";
     _headers_buffer := Some (map (fun l => l ++ PyStr.CRLF) head);
     wfile := "";
     close_connection := true |}.

End Library.

(** ** Reading a response back

    How a client sees the header section of a response: the bytes are cut at
    every CRLF, and the section runs up to the first empty line.  A header is
    recognised by its name, compared without regard to case. *)
Module Client.

(** [data.split(b"\r\n")]. *)
Fixpoint lines (data : string) : list string :=
  match data with
  | EmptyString => [EmptyString]
  | String a rest =>
      match a, rest with
      | "013"%char, String "010"%char rest' => EmptyString :: lines rest'
      | _, _ =>
          match lines rest with
          | [] => [String a EmptyString]
          | l :: ls => String a l :: ls
          end
      end
  end.

Fixpoint until_blank (ls : list string) : list string :=
  match ls with
  | [] => []
  | l :: ls' => if String.eqb l "" then [] else l :: until_blank ls'
  end.

Definition headers (data : string) : list string := until_blank (lines data).

Definition is_header (name line : string) : bool :=
  String.prefix (PyStr.lower name ++ ":") (PyStr.lower line).

Definition security_names : list string :=
  ["X-Content-Type-Options"; "X-Frame-Options"; "X-XSS-Protection"].

Definition is_security_header (line : string) : bool :=
  existsb (fun name => is_header name line) security_names.

(** A header line as the base handler queues one: some text, not empty and
    with no CRLF in it. *)
Definition is_text (l : string) : bool :=
  negb (String.eqb l "")
  && match lines l with
     | [l'] => String.eqb l l'
     | _ => false
     end.

End Client.

(** ** The module top level

    A run of the script is the list of what it does to the outside, in order,
    and how it ends: by returning, by an exception nobody catches, or never
    (inside [serve_forever], while no interrupt arrives). *)
Module Script.

Inductive exn : Type :=
| OSError (strerror : string)
| KeyboardInterrupt.

Inductive event : Type :=
| Print (line : string)
| Bind (host : string) (port : Z)
| Serve_forever
| Server_close.

Inductive outcome (A : Type) : Type :=
| Done (a : A)
| Uncaught (e : exn)
| Forever.
Arguments Done {A} a.
Arguments Uncaught {A} e.
Arguments Forever {A}.

Definition IO (A : Type) : Type := System -> list event * outcome A.

#[export] Instance Monad_IO : Monad IO := {
  ret := fun _ a _ => ([], Done a);
  bind := fun _ _ c f sys =>
    match c sys with
    | (t, Done a) => let (t', r) := f a sys in ((t ++ t')%list, r)
    | (t, Uncaught e) => (t, Uncaught e)
    | (t, Forever) => (t, Forever)
    end
}.

(** [try: body finally: cleanup]. *)
Definition finally {A : Type} (body : IO A) (cleanup : IO unit) : IO A :=
  fun sys =>
    match body sys with
    | (t, Forever) => (t, Forever)
    | (t, r) => let (t', _) := cleanup sys in ((t ++ t')%list, r)
    end.

Definition print (line : string) : IO unit :=
  fun _ => ([Print line], Done tt).

Inductive handler_class : Type := MyHTTPRequestHandler.

Record TCPServer_object : Type := {
  server_address : string * Z;
  RequestHandlerClass : handler_class
}.

(** Modelled from the spec: [socketserver.TCPServer(address, handler)], of
    the library.  The constructor binds the listening socket, and the bind
    raises [OSError] when the port is taken. *)
Definition TCPServer (address : string * Z) (handler : handler_class) :
  IO TCPServer_object :=
  fun sys =>
    ([Bind (fst address) (snd address)],
     if existsb (Z.eqb (snd address)) (ports_in_use sys) then
       Uncaught (OSError "Address already in use")
     else
       Done {| server_address := address; RequestHandlerClass := handler |}).

(** Modelled from the spec: the serve loop of the library, which accepts
    connections until the process is interrupted; it returns only by the
    exception of Ctrl+C. *)
Definition serve_forever (httpd : TCPServer_object) : IO unit :=
  fun sys =>
    ([Serve_forever],
     if interrupt sys then Uncaught KeyboardInterrupt else Forever).

Definition server_close (httpd : TCPServer_object) : IO unit :=
  fun _ => ([Server_close], Done tt).

(** [with ctx as x: body], for a server, whose [__exit__] closes it. *)
Definition with_as {A : Type} (ctx : IO TCPServer_object)
           (body : TCPServer_object -> IO A) : IO A :=
  x <- ctx ;; finally (body x) (server_close x).

Definition PORT : Z := 8000.
Definition Handler : handler_class := MyHTTPRequestHandler.

Definition main : IO unit :=
  print ("서버 시작: http://localhost:" ++ PyStr.str_of_int PORT) ;;
  print "이 서버는 Vercel 배포 환경과 유사한 조건으로 실행됩니다." ;;
  print "Ctrl+C로 종료하세요." ;;
  with_as (TCPServer ("", PORT) Handler) (fun httpd =>
    serve_forever httpd).

Definition trace {A : Type} (r : list event * outcome A) : list event := fst r.
Definition result {A : Type} (r : list event * outcome A) : outcome A := snd r.

(** What reached standard output, one entry per [print]. *)
Definition stdout (t : list event) : list string :=
  flat_map (fun e => match e with Print l => [l] | _ => [] end) t.

Definition binds (t : list event) : list (string * Z) :=
  flat_map (fun e => match e with Bind h p => [(h, p)] | _ => [] end) t.

Definition is_serve (e : event) : bool :=
  match e with Serve_forever => true | _ => false end.

Definition is_print (e : event) : bool :=
  match e with Print _ => true | _ => false end.

End Script.

(** ** The extension of a path

    The claims speak of "the path's extension": the final dot-suffix of the
    last component, where a component made of leading dots only (as the bare
    filename [.js]) has none.  This is [posixpath.splitext], which the base
    handler applies to the path; it is stated here to be compared with the
    suffix test of [guess_type], which does not use it. *)
Module Posixpath.

(** Some character of [p[lo:hi]] is not a dot. *)
Definition has_non_dot (p : string) (lo hi : Z) : bool :=
  existsb (fun a => negb (Ascii.eqb a "."))
          (list_ascii_of_string
             (substring (Z.to_nat lo) (Z.to_nat (hi - lo)) p)).

Definition extension (p : string) : string :=
  let sepIndex := PyStr.rfind p "/" in
  let dotIndex := PyStr.rfind p "." in
  if (sepIndex <? dotIndex)%Z && has_non_dot p (sepIndex + 1) dotIndex then
    PyStr.slice_from (Z.to_nat dotIndex) p
  else
    "".

End Posixpath.

(** ** Sample data for concrete runs *)
Module Sample.

(** A few rows of the library's extension table, with its fallback. *)
Definition mimetypes (_ : System) (path : string) : string :=
  let ext := PyStr.lower (Posixpath.extension path) in
  if String.eqb ext ".html" then "text/html"
  else if String.eqb ext ".css" then "text/css"
  else if String.eqb ext ".js" then "text/javascript"
  else if String.eqb ext ".mjs" then "application/javascript"
  else "application/octet-stream".

(** The same table for a reading of the base class that has no machine. *)
Definition mimetypes_of (path : string) : string :=
  mimetypes {| argv := []; environ := []; cwd := ""; files := [];
               ports_in_use := []; interrupt := false |} path.

Definition host (args : list string) (env : list (string * string))
           (taken : list Z) : System :=
  {| argv := args; environ := env; cwd := "/srv/site";
     files := [("/srv/site/index.html", "<html></html>");
               ("/srv/site/script.js", "console.log(1);")];
     ports_in_use := taken; interrupt := true |}.

(** What the base handler queues for a [200] response: the status line and
    its standard headers. *)
Definition ok_head : list string :=
  ["HTTP/1.0 200 OK"; "Server: SimpleHTTP/0.6 Python/3.11.2";
   "Date: Wed, 04 Nov 2026 12:00:00 GMT"; "Content-type: text/html";
   "Content-Length: 13"; "Last-Modified: Wed, 04 Nov 2026 11:00:00 GMT"].

(** The same for a [404] error response. *)
Definition not_found_head : list string :=
  ["HTTP/1.0 404 File not found"; "Server: SimpleHTTP/0.6 Python/3.11.2";
   "Date: Wed, 04 Nov 2026 12:00:00 GMT"; "Connection: close";
   "Content-Type: text/html;charset=utf-8"; "Content-Length: 335"].

Definition not_found_body : string :=
  "<!DOCTYPE HTML><html><body><h1>Error response</h1>"
  ++ "<p>Error code: 404</p><p>Message: File not found.</p></body></html>".

(** The head of a response on which a framing policy is already queued. *)
Definition framed_head : list string :=
  (ok_head ++ ["X-Frame-Options: SAMEORIGIN"])%list.

(** A handler with those lines queued and nothing written yet. *)
Definition world (s : System) (head : list string) : Wire.World :=
  {| Wire.sys := s;
     Wire.self := {| Wire._headers_buffer :=
                       map (fun l => l ++ PyStr.CRLF) head;
                     Wire.wfile := "" |} |}.

End Sample.

(** * Properties *)

(** ** Strings *)
Module PyStrFacts.
Import PyStr.

Lemma length_app (p q : string) :
  String.length (p ++ q) = String.length p + String.length q.
Proof. induction p as [|a p IH]; simpl; [reflexivity | now rewrite IH]. Qed.

Lemma substring_all (s : string) : substring 0 (String.length s) s = s.
Proof. induction s as [|a s IH]; simpl; [reflexivity | now rewrite IH]. Qed.

Lemma substring_app_tail (p q : string) :
  substring (String.length p) (String.length q) (p ++ q) = q.
Proof. induction p as [|a p IH]; simpl; [apply substring_all | exact IH]. Qed.

Lemma substring_split (n : nat) : forall s : string,
  n <= String.length s ->
  s = substring 0 n s ++ substring n (String.length s - n) s.
Proof.
  induction n as [|n IH]; intros s Hn.
  - rewrite Nat.sub_0_r, substring_all. now destruct s.
  - destruct s as [|a s]; simpl in *; [lia|].
    f_equal. apply IH. lia.
Qed.

(** [endswith] decides "is a suffix of". *)
Lemma endswith_iff (s suffix : string) :
  endswith s suffix = true <-> exists p, s = p ++ suffix.
Proof.
  unfold endswith. split.
  - intros H. apply andb_true_iff in H as [Hle Heq].
    apply Nat.leb_le in Hle. apply String.eqb_eq in Heq.
    exists (substring 0 (String.length s - String.length suffix) s).
    rewrite <- Heq at 2.
    rewrite (substring_split (String.length s - String.length suffix) s) at 1
      by lia.
    do 2 f_equal. lia.
  - intros [p ->]. rewrite length_app.
    apply andb_true_iff. split; [apply Nat.leb_le; lia|].
    replace (String.length p + String.length suffix - String.length suffix)
      with (String.length p) by lia.
    rewrite substring_app_tail. apply String.eqb_refl.
Qed.

Lemma slice_from_suffix (i : nat) (s : string) :
  i <= String.length s -> exists p, s = p ++ slice_from i s.
Proof.
  intros H. exists (substring 0 i s). now apply substring_split.
Qed.

Lemma app_empty_r (s : string) : s ++ "" = s.
Proof. induction s as [|a s IH]; simpl; [reflexivity | now rewrite IH]. Qed.

Lemma app_assoc (p q r : string) : (p ++ q) ++ r = p ++ (q ++ r).
Proof. induction p as [|a p IH]; simpl; [reflexivity | now rewrite IH]. Qed.

Lemma slice_from_app (p q : string) :
  slice_from (String.length p) (p ++ q) = q.
Proof.
  unfold slice_from. rewrite length_app.
  replace (String.length p + String.length q - String.length p)
    with (String.length q) by lia.
  apply substring_app_tail.
Qed.

Lemma join_cons (x : string) (xs : list string) :
  join (x :: xs) = x ++ join xs.
Proof.
  unfold join. destruct xs as [|y ys]; simpl; [now rewrite app_empty_r|].
  reflexivity.
Qed.

Lemma join_app (xs ys : list string) : join (xs ++ ys) = join xs ++ join ys.
Proof.
  induction xs as [|x xs IH]; [reflexivity|].
  rewrite <- List.app_comm_cons, !join_cons, IH. now rewrite app_assoc.
Qed.

Lemma substring_past (m : nat) : forall (n : nat) (s : string),
  String.length s <= n -> substring n m s = "".
Proof.
  induction n as [|n IH]; intros s H.
  - destruct s; simpl in *; [now destruct m | lia].
  - destruct s as [|a s]; simpl in *; [reflexivity|]. apply IH. lia.
Qed.

Lemma slice_from_is_suffix (i : nat) (s : string) :
  slice_from i s <> "" -> exists p, s = p ++ slice_from i s.
Proof.
  intros H. destruct (Nat.le_gt_cases i (String.length s)) as [Hi | Hi].
  - now apply slice_from_suffix.
  - exfalso. apply H. unfold slice_from. apply substring_past. lia.
Qed.

End PyStrFacts.

(** ** The extension of a path is a suffix of it *)
Module PosixpathFacts.
Import PyStr PyStrFacts Posixpath.

Lemma extension_is_suffix (p : string) :
  extension p <> "" -> exists stem, p = stem ++ extension p.
Proof.
  unfold extension.
  destruct ((rfind p "/" <? rfind p ".")%Z
            && has_non_dot p (rfind p "/" + 1) (rfind p ".")).
  - apply slice_from_is_suffix.
  - intros H. now contradiction H.
Qed.

Lemma extension_js_endswith (p : string) :
  extension p = ".js" -> endswith p ".js" = true.
Proof.
  intros H. apply endswith_iff.
  destruct (extension_is_suffix p) as [stem Hstem].
  - rewrite H. discriminate.
  - exists stem. now rewrite <- H.
Qed.

End PosixpathFacts.

(** ** Content-type inference *)
Section GuessType.

Variable mimetypes : System -> string -> string.

Let inferred (path : string) (w : Wire.World) : string :=
  evalState (guess_type (Base := Wire.Base mimetypes) path) w.

Let default (path : string) (w : Wire.World) : string :=
  evalState (super_guess_type (SimpleHTTPRequestHandler := Wire.Base mimetypes)
                              path) w.

Lemma guess_type_run (path : string) (w : Wire.World) :
  runState (guess_type (Base := Wire.Base mimetypes) path) w =
  (if PyStr.endswith path ".js" then "application/javascript"
   else mimetypes (Wire.sys w) path, w).
Proof.
  unfold guess_type. simpl. now destruct (PyStr.endswith path ".js").
Qed.

(** C1: a path that ends in [.js] gets [application/javascript], whatever
    the base handler's table says for it, and the inference leaves the
    handler as it was. *)
Theorem guess_type_js_suffix (w : Wire.World) (stem : string) :
  runState (guess_type (Base := Wire.Base mimetypes) (stem ++ ".js")) w =
  ("application/javascript", w).
Proof.
  rewrite guess_type_run.
  replace (PyStr.endswith (stem ++ ".js") ".js") with true; [reflexivity|].
  symmetry. apply PyStrFacts.endswith_iff. now exists stem.
Qed.

(** C4: on a path that does not end in [.js], the override answers exactly
    what the base handler's inference answers, fallback included, with the
    same effect on the handler. *)
Theorem guess_type_other_is_default (w : Wire.World) (path : string) :
  PyStr.endswith path ".js" = false ->
  runState (guess_type (Base := Wire.Base mimetypes) path) w =
  runState (super_guess_type (SimpleHTTPRequestHandler := Wire.Base mimetypes)
                             path) w.
Proof.
  intros H. rewrite guess_type_run, H. reflexivity.
Qed.

(** C5, as amended: the test is on the suffix of the path, not on its
    extension.  A path whose extension is [.js] ends in [.js] and gets
    [application/javascript]; so does every other path ending in [.js],
    the bare filename [.js] among them; a path that does not end in [.js]
    gets the default guess; hence the answer is [application/javascript]
    exactly when the path ends in [.js] or the default guess is already
    that. *)
Theorem guess_type_by_suffix (w : Wire.World) (path : string) :
  (Posixpath.extension path = ".js" ->
   inferred path w = "application/javascript")
  /\ (PyStr.endswith path ".js" = true ->
      inferred path w = "application/javascript")
  /\ inferred ".js" w = "application/javascript"
  /\ (PyStr.endswith path ".js" = false ->
      inferred path w = default path w)
  /\ (inferred path w = "application/javascript" <->
      PyStr.endswith path ".js" = true
      \/ default path w = "application/javascript").
Proof.
  unfold inferred, default, evalState.
  rewrite !guess_type_run. simpl.
  repeat split.
  - intros H. now rewrite (PosixpathFacts.extension_js_endswith path H).
  - intros ->. reflexivity.
  - intros ->. reflexivity.
  - destruct (PyStr.endswith path ".js"); [now left | now right].
  - intros [-> | H]; [reflexivity|].
    now destruct (PyStr.endswith path ".js").
Qed.

End GuessType.

(** The end-to-end scenario of [script.js]. *)
Example guess_type_script_js :
  evalState (guess_type (Base := Wire.Base Sample.mimetypes) "/script.js")
            (Sample.world (Sample.host [] [] []) Sample.ok_head)
  = "application/javascript".
Proof. reflexivity. Qed.

Lemma guess_type_other_is_default_witness :
  PyStr.endswith "/index.html" ".js" = false
  /\ evalState (guess_type (Base := Wire.Base Sample.mimetypes) "/index.html")
               (Sample.world (Sample.host [] [] []) Sample.ok_head)
     = "text/html".
Proof.
  split; [reflexivity|].
  unfold evalState.
  rewrite (guess_type_other_is_default Sample.mimetypes
             (Sample.world (Sample.host [] [] []) Sample.ok_head)
             "/index.html" eq_refl).
  reflexivity.
Defined.

(** C5, as first stated, fails on the bare filename [.js]: its extension is
    empty, yet the answer is [application/javascript] and not the default
    guess. *)
Lemma guess_type_bare_js_not_by_extension :
  let w := Sample.world (Sample.host [] [] []) Sample.ok_head in
  let inferred :=
    evalState (guess_type (Base := Wire.Base Sample.mimetypes) ".js") w in
  let default :=
    evalState (super_guess_type
                 (SimpleHTTPRequestHandler := Wire.Base Sample.mimetypes)
                 ".js") w in
  ~ (inferred = "application/javascript" <-> Posixpath.extension ".js" = ".js")
  /\ ~ (Posixpath.extension ".js" <> ".js" -> inferred = default).
Proof.
  cbv zeta. split.
  - intros [H _]. specialize (H eq_refl). discriminate H.
  - intros H. assert (Hne : Posixpath.extension ".js" <> ".js") by discriminate.
    specialize (H Hne). discriminate H.
Qed.

Lemma guess_type_by_suffix_witness :
  Posixpath.extension "/app/main.js" = ".js"
  /\ evalState (guess_type (Base := Wire.Base Sample.mimetypes) "/app/main.js")
               (Sample.world (Sample.host [] [] []) Sample.ok_head)
     = "application/javascript".
Proof.
  split; [reflexivity|].
  exact (proj1 (guess_type_by_suffix Sample.mimetypes
                  (Sample.world (Sample.host [] [] []) Sample.ok_head)
                  "/app/main.js") eq_refl).
Defined.

(** ** Reading header lines back from the bytes *)
Module ClientFacts.
Import PyStr PyStrFacts Client.

Lemma lines_not_nil (data : string) : lines data <> [].
Proof.
  destruct data as [|a rest]; simpl; [discriminate|].
  destruct a as [[] [] [] [] [] [] [] []]; try destruct rest as [|b rest'];
    try (destruct (lines _); discriminate).
  destruct b as [[] [] [] [] [] [] [] []];
    try discriminate; destruct (lines _); discriminate.
Qed.

(** One step of [lines] on a character that does not start a CRLF. *)
Lemma lines_step (a : ascii) (rest : string) :
  (forall rest', a = "013"%char -> rest <> String "010"%char rest') ->
  lines (String a rest) =
  match lines rest with
  | [] => [String a EmptyString]
  | l :: ls => String a l :: ls
  end.
Proof.
  intros H. simpl.
  destruct a as [[] [] [] [] [] [] [] []]; try reflexivity.
  destruct rest as [|b rest']; [reflexivity|].
  destruct b as [[] [] [] [] [] [] [] []]; try reflexivity.
  now contradiction (H rest' eq_refl).
Qed.

Lemma lines_crlf (rest : string) :
  lines (CRLF ++ rest) = EmptyString :: lines rest.
Proof. reflexivity. Qed.

(** A text with no CRLF in it, followed by CRLF, is read back as one line. *)
Lemma lines_text_crlf (l : string) : forall rest : string,
  lines l = [l] -> lines (l ++ CRLF ++ rest) = l :: lines rest.
Proof.
  induction l as [|a l IH]; intros rest Hl; [apply lines_crlf|].
  destruct (ascii_dec a "013"%char) as [Ha | Ha].
  - subst a. destruct l as [|b l'].
    + reflexivity.
    + destruct (ascii_dec b "010"%char) as [Hb | Hb].
      * subst b. simpl in Hl. discriminate Hl.
      * assert (Hl' : lines (String b l') = [String b l']).
        { rewrite lines_step in Hl by (intros r _ E; inversion E; congruence).
          destruct (lines (String b l')) as [|x xs] eqn:E;
            [now contradiction (lines_not_nil (String b l'))|].
          inversion Hl; subst. reflexivity. }
        change (String "013"%char (String b l') ++ CRLF ++ rest)
          with (String "013"%char (String b l' ++ CRLF ++ rest)).
        rewrite lines_step
          by (intros r _ E; simpl in E; inversion E; congruence).
        now rewrite (IH rest Hl').
  - assert (Hl' : lines l = [l]).
    { rewrite lines_step in Hl by (intros r E; congruence).
      destruct (lines l) as [|x xs] eqn:E;
        [now contradiction (lines_not_nil l)|].
      inversion Hl; subst. reflexivity. }
    change (String a l ++ CRLF ++ rest) with (String a (l ++ CRLF ++ rest)).
    rewrite lines_step by (intros r E; congruence).
    now rewrite (IH rest Hl').
Qed.

Lemma is_text_inv (l : string) :
  is_text l = true -> l <> "" /\ lines l = [l].
Proof.
  unfold is_text. intros H. apply andb_true_iff in H as [Hne Hl]. split.
  - intros ->. discriminate Hne.
  - destruct (lines l) as [|x [|y ys]]; try discriminate Hl.
    apply String.eqb_eq in Hl. now subst x.
Qed.

(** The bytes of queued lines are read back as those lines. *)
Lemma lines_join_terminated (hs : list string) (rest : string) :
  forallb is_text hs = true ->
  lines (join (map (fun l => l ++ CRLF) hs) ++ rest) = (hs ++ lines rest)%list.
Proof.
  induction hs as [|h hs IH]; intros H; [reflexivity|].
  simpl in H. apply andb_true_iff in H as [Hh Hhs].
  apply is_text_inv in Hh as [_ Hh].
  simpl map. rewrite join_cons, !PyStrFacts.app_assoc.
  rewrite (lines_text_crlf h _ Hh), (IH Hhs). reflexivity.
Qed.

Lemma until_blank_app (hs ls : list string) :
  forallb is_text hs = true ->
  until_blank (hs ++ ls) = (hs ++ until_blank ls)%list.
Proof.
  induction hs as [|h hs IH]; intros H; [reflexivity|].
  simpl in H. apply andb_true_iff in H as [Hh Hhs].
  apply is_text_inv in Hh as [Hne _].
  simpl. destruct (String.eqb_spec h ""); [contradiction|].
  now rewrite (IH Hhs).
Qed.

Lemma filter_none {A : Type} (f : A -> bool) (l : list A) :
  forallb (fun x => negb (f x)) l = true -> filter f l = [].
Proof.
  induction l as [|x l IH]; simpl; [reflexivity|].
  intros H. apply andb_true_iff in H as [Hx Hl].
  destruct (f x); [discriminate | now apply IH].
Qed.

End ClientFacts.

(** ** Finalizing the headers of a response *)
Section EndHeaders.

Variable mimetypes : System -> string -> string.

Let finalize : state Wire.World unit :=
  end_headers (Base := Wire.Base mimetypes).

Let security_lines : list string :=
  [Wire.header_line "X-Content-Type-Options" "nosniff";
   Wire.header_line "X-Frame-Options" "DENY";
   Wire.header_line "X-XSS-Protection" "1; mode=block"].

Lemma end_headers_run (w : Wire.World) :
  runState finalize w =
  (tt, Wire.flush_headers
         (Wire.queue PyStr.CRLF
            (fold_left (fun w' l => Wire.queue l w') security_lines w))).
Proof. reflexivity. Qed.

Lemma end_headers_written (w : Wire.World) :
  Wire.written w (execState finalize w) =
  PyStr.join (Wire._headers_buffer (Wire.self w)
              ++ security_lines ++ [PyStr.CRLF]).
Proof.
  unfold Wire.written, execState. rewrite end_headers_run. simpl.
  rewrite PyStrFacts.slice_from_app. f_equal.
  now rewrite <- !List.app_assoc.
Qed.

(** What a client reads back, whatever body follows the header block: the
    lines the base handler queued, then the three security headers. *)
Lemma end_headers_read_back (w : Wire.World) (hs : list string)
      (body : string) :
  Wire._headers_buffer (Wire.self w) = map (fun l => l ++ PyStr.CRLF) hs ->
  forallb Client.is_text hs = true ->
  Client.headers (Wire.written w (execState finalize w) ++ body) =
  (hs ++ ["X-Content-Type-Options: nosniff"; "X-Frame-Options: DENY";
          "X-XSS-Protection: 1; mode=block"])%list.
Proof.
  intros Hbuf Htext. rewrite end_headers_written, Hbuf.
  rewrite PyStrFacts.join_app, PyStrFacts.app_assoc. unfold Client.headers.
  rewrite (ClientFacts.lines_join_terminated hs _ Htext).
  rewrite (ClientFacts.until_blank_app hs _ Htext).
  reflexivity.
Qed.

Lemma not_security_not_named (name : string) (hs : list string) :
  In name Client.security_names ->
  forallb (fun l => negb (Client.is_security_header l)) hs = true ->
  forallb (fun l => negb (Client.is_header name l)) hs = true.
Proof.
  intros Hin H. apply forallb_forall. intros l Hl.
  apply (proj1 (forallb_forall _ _) H) in Hl.
  destruct (Client.is_header name l) eqn:E; [|reflexivity].
  exfalso. apply negb_true_iff in Hl.
  assert (Client.is_security_header l = true); [|congruence].
  apply existsb_exists. now exists name.
Qed.

(** C3: no response carries a Content-Security-Policy header: the override
    queues none, so a client reads one only if the base handler queued it. *)
Theorem no_content_security_policy
        (w : Wire.World) (hs : list string) (body : string) :
  Wire._headers_buffer (Wire.self w) = map (fun l => l ++ PyStr.CRLF) hs ->
  forallb Client.is_text hs = true ->
  forallb (fun l => negb (Client.is_header "Content-Security-Policy" l)) hs
    = true ->
  filter (Client.is_header "Content-Security-Policy")
         (Client.headers (Wire.written w (execState finalize w) ++ body))
  = [].
Proof.
  intros Hbuf Htext Hnone.
  rewrite (end_headers_read_back w hs body Hbuf Htext), filter_app.
  now rewrite (ClientFacts.filter_none _ hs Hnone).
Qed.

(** C8: [end_headers] calls [send_header] for the three security headers,
    in order, and then the base [end_headers], once and last; that call
    finds the three lines queued and puts the block on the wire, closed by
    the blank line. *)
Theorem end_headers_appends_then_delegates
        (table : string -> string) (w : Wire.World) :
  let calls :=
    Recorded.calls (@end_headers Recorded.Calls Recorded.Monad_Calls
                                 (Recorded.Base table)) in
  calls = [Recorded.Send_header "X-Content-Type-Options" "nosniff";
           Recorded.Send_header "X-Frame-Options" "DENY";
           Recorded.Send_header "X-XSS-Protection" "1; mode=block";
           Recorded.Super_end_headers]
  /\ length (filter Recorded.is_super_end_headers calls) = 1
  /\ runState finalize w =
     runState (super_end_headers
                 (SimpleHTTPRequestHandler := Wire.Base mimetypes))
              (fold_left (fun w' l => Wire.queue l w') security_lines w)
  /\ Wire.written w (execState finalize w) =
     PyStr.join (Wire._headers_buffer (Wire.self w) ++ security_lines)
     ++ PyStr.CRLF.
Proof.
  repeat split.
  rewrite end_headers_written, List.app_assoc, PyStrFacts.join_app.
  reflexivity.
Qed.

(** C10: whatever the base handler has queued, the block put on the wire is
    those bytes unchanged, then the three security headers, then the blank
    line; it follows what was written before, the buffer is left empty and
    nothing else of the handler changes. *)
Theorem end_headers_keeps_queued_headers (w : Wire.World) :
  let w' := execState finalize w in
  Wire.wfile (Wire.self w') =
    Wire.wfile (Wire.self w)
    ++ PyStr.join (Wire._headers_buffer (Wire.self w))
    ++ "X-Content-Type-Options: nosniff" ++ PyStr.CRLF
    ++ "X-Frame-Options: DENY" ++ PyStr.CRLF
    ++ "X-XSS-Protection: 1; mode=block" ++ PyStr.CRLF
    ++ PyStr.CRLF
  /\ Wire.written w w' =
     PyStr.join (Wire._headers_buffer (Wire.self w)
                 ++ security_lines ++ [PyStr.CRLF])
  /\ Wire._headers_buffer (Wire.self w') = []
  /\ Wire.sys w' = Wire.sys w.
Proof.
  cbv zeta. repeat split; [|apply end_headers_written].
  unfold execState. rewrite end_headers_run. simpl. f_equal.
  rewrite <- !List.app_assoc. simpl. rewrite PyStrFacts.join_app.
  reflexivity.
Qed.

End EndHeaders.

(** ** The security headers under the library's own methods *)
Section LibraryHeaders.

Variable table : string -> string.

Let finalize : Library.Method unit :=
  @end_headers Library.Method Library.Monad_Method (Library.Base table).

Lemma library_end_headers_http09 (h : Library.Handler) :
  Library.request_version h = "HTTP/0.9" ->
  finalize h = (Library.Returned tt, h).
Proof.
  intros Hv. destruct h as [version buffer out close].
  simpl in Hv. subst version. reflexivity.
Qed.

(** A header other than [Connection], at a version other than HTTP/0.9, is
    queued and changes nothing else. *)
Lemma library_send_header_queues (keyword value : string)
      (h : Library.Handler) :
  String.eqb (PyStr.lower keyword) "connection" = false ->
  Library.request_version h <> "HTTP/0.9" ->
  Library.lib_send_header keyword value h =
  (Library.Returned tt,
   Library.set_buffer
     (Library.queued h ++ [Wire.header_line keyword value]) h).
Proof.
  intros Hk Hv. apply String.eqb_neq in Hv.
  unfold Library.lib_send_header. now rewrite Hk, Hv.
Qed.

Lemma library_end_headers_run (h : Library.Handler) :
  Library.request_version h <> "HTTP/0.9" ->
  finalize h =
  (Library.Returned tt,
   {| Library.request_version := Library.request_version h;
      Library._headers_buffer := Some [];
      Library.wfile :=
        Library.wfile h
        ++ PyStr.join (Library.queued h
                       ++ [Wire.header_line "X-Content-Type-Options" "nosniff";
                           Wire.header_line "X-Frame-Options" "DENY";
                           Wire.header_line "X-XSS-Protection" "1; mode=block";
                           PyStr.CRLF]);
      Library.close_connection := Library.close_connection h |}).
Proof.
  intros Hv. unfold finalize, end_headers.
  cbn [bind Library.Monad_Method send_header super_end_headers Library.Base].
  rewrite (library_send_header_queues _ _ h) by (reflexivity || exact Hv).
  rewrite library_send_header_queues by (reflexivity || exact Hv).
  rewrite library_send_header_queues by (reflexivity || exact Hv).
  apply String.eqb_neq in Hv.
  unfold Library.lib_end_headers, Library.lib_flush_headers. simpl.
  rewrite Hv. simpl. unfold Library.set_buffer, Library.write. simpl.
  unfold Library.queued at 1 2. simpl.
  rewrite <- !List.app_assoc. reflexivity.
Qed.

(** C2, as amended: in every response that has a header section, success
    or error, a client reads each of the three security headers exactly
    once, in the order X-Content-Type-Options, X-Frame-Options,
    X-XSS-Protection; the lines queued by the base handler are any
    well-formed lines that are not themselves one of the three, and any body
    may follow.  A response made at request version HTTP/0.9 has no header
    section: [end_headers] then returns with the handler as it was, nothing
    queued and nothing written.  In both cases [end_headers] raises
    nothing. *)
Theorem security_headers_once_unless_http09
        (h : Library.Handler) (hs : list string) (body : string) :
  Library.queued h = map (fun l => l ++ PyStr.CRLF) hs ->
  forallb Client.is_text hs = true ->
  forallb (fun l => negb (Client.is_security_header l)) hs = true ->
  let run := finalize h in
  let sent :=
    Client.headers (Library.written h (snd run) ++ body) in
  fst run = Library.Returned tt
  /\ (Library.request_version h <> "HTTP/0.9" ->
      filter Client.is_security_header sent =
        ["X-Content-Type-Options: nosniff"; "X-Frame-Options: DENY";
         "X-XSS-Protection: 1; mode=block"]
      /\ filter (Client.is_header "X-Content-Type-Options") sent =
           ["X-Content-Type-Options: nosniff"]
      /\ filter (Client.is_header "X-Frame-Options") sent =
           ["X-Frame-Options: DENY"]
      /\ filter (Client.is_header "X-XSS-Protection") sent =
           ["X-XSS-Protection: 1; mode=block"])
  /\ (Library.request_version h = "HTTP/0.9" ->
      snd run = h /\ Library.written h (snd run) = "").
Proof.
  intros Hbuf Htext Hnone run sent. subst sent run.
  destruct (String.string_dec (Library.request_version h) "HTTP/0.9")
    as [Hv | Hv].
  - rewrite (library_end_headers_http09 h Hv). simpl.
    split; [reflexivity|]. split; [intros Hne; now contradiction Hne|].
    intros _. split; [reflexivity|].
    unfold Library.written.
    rewrite <- (PyStrFacts.app_empty_r (Library.wfile h)) at 2.
    apply PyStrFacts.slice_from_app.
  - rewrite (library_end_headers_run h Hv). simpl.
    split; [reflexivity|]. split; [|intros Hv'; now contradiction Hv].
    intros _. unfold Library.written. simpl.
    rewrite PyStrFacts.slice_from_app, Hbuf.
    rewrite PyStrFacts.join_app, PyStrFacts.app_assoc. unfold Client.headers.
    rewrite (ClientFacts.lines_join_terminated hs _ Htext).
    rewrite (ClientFacts.until_blank_app hs _ Htext).
    change (Client.until_blank _)
      with ["X-Content-Type-Options: nosniff"; "X-Frame-Options: DENY";
            "X-XSS-Protection: 1; mode=block"].
    rewrite !filter_app.
    assert (Hname : forall name, In name Client.security_names ->
                     filter (Client.is_header name) hs = []).
    { intros name Hin. apply ClientFacts.filter_none.
      now apply not_security_not_named. }
    rewrite (ClientFacts.filter_none _ hs Hnone).
    rewrite !Hname by (simpl; tauto).
    repeat split.
Qed.

End LibraryHeaders.

Lemma security_headers_once_unless_http09_witness :
  let hs := Sample.not_found_head in
  let h := Library.http10_handler hs in
  let run := @end_headers Library.Method Library.Monad_Method
                          (Library.Base Sample.mimetypes_of) h in
  Library.queued h = map (fun l => l ++ PyStr.CRLF) hs
  /\ forallb Client.is_text hs = true
  /\ forallb (fun l => negb (Client.is_security_header l)) hs = true
  /\ Library.request_version h <> "HTTP/0.9"
  /\ filter Client.is_security_header
       (Client.headers (Library.written h (snd run) ++ Sample.not_found_body))
     = ["X-Content-Type-Options: nosniff"; "X-Frame-Options: DENY";
        "X-XSS-Protection: 1; mode=block"].
Proof.
  cbv zeta. split; [reflexivity|]. split; [reflexivity|].
  split; [reflexivity|]. split; [discriminate|].
  assert (Hv : Library.request_version
                 (Library.http10_handler Sample.not_found_head)
               <> "HTTP/0.9") by discriminate.
  exact (proj1 (proj1 (proj2 (security_headers_once_unless_http09
                                Sample.mimetypes_of
                                (Library.http10_handler Sample.not_found_head)
                                Sample.not_found_head Sample.not_found_body
                                eq_refl eq_refl eq_refl)) Hv)).
Defined.

(** C2, as first stated, fails for a request of version HTTP/0.9, as the
    two-word request line [GET /index.html]: the library writes no header in
    that mode, [end_headers] leaves the connection untouched, and the
    response is the body alone, with none of the three headers. *)
Lemma http09_response_has_no_security_header :
  let h := Library.http09_handler in
  let run := @end_headers Library.Method Library.Monad_Method
                          (Library.Base Sample.mimetypes_of) h in
  let sent :=
    Client.headers (Library.written h (snd run) ++ "<html></html>") in
  fst run = Library.Returned tt
  /\ Library.wfile (snd run) = ""
  /\ ~ (filter Client.is_security_header sent =
          ["X-Content-Type-Options: nosniff"; "X-Frame-Options: DENY";
           "X-XSS-Protection: 1; mode=block"]).
Proof.
  cbv zeta. split; [reflexivity|]. split; [reflexivity|].
  intros H. discriminate H.
Qed.

Lemma no_content_security_policy_witness :
  let hs := Sample.ok_head in
  let w := Sample.world (Sample.host [] [] []) hs in
  forallb Client.is_text hs = true
  /\ forallb (fun l => negb (Client.is_header "Content-Security-Policy" l)) hs
     = true
  /\ filter (Client.is_header "Content-Security-Policy")
       (Client.headers
          (Wire.written w
             (execState (end_headers (Base := Wire.Base Sample.mimetypes))
                        w)
           ++ "<html></html>")) = [].
Proof.
  cbv zeta. split; [reflexivity|]. split; [reflexivity|].
  exact (no_content_security_policy Sample.mimetypes
           (Sample.world (Sample.host [] [] []) Sample.ok_head)
           Sample.ok_head "<html></html>" eq_refl eq_refl eq_refl).
Defined.

(** ** Runs of the script *)
Module ScriptFacts.
Import Script.

Lemma port_taken (s : System) :
  In PORT (ports_in_use s) ->
  existsb (Z.eqb PORT) (ports_in_use s) = true.
Proof.
  intros H. apply existsb_exists. exists PORT. split; [exact H|].
  apply Z.eqb_refl.
Qed.

Lemma main_run (s : System) :
  main s =
  ([Print "서버 시작: http://localhost:8000";
    Print "이 서버는 Vercel 배포 환경과 유사한 조건으로 실행됩니다.";
    Print "Ctrl+C로 종료하세요.";
    Bind "" 8000]
   ++ (if existsb (Z.eqb PORT) (ports_in_use s) then []
       else if interrupt s then [Serve_forever; Server_close]
       else [Serve_forever]),
   if existsb (Z.eqb PORT) (ports_in_use s) then
     Uncaught (OSError "Address already in use")
   else if interrupt s then Uncaught KeyboardInterrupt
   else Forever)%list.
Proof.
  unfold main, with_as, TCPServer, serve_forever, finally. simpl.
  destruct (existsb (Z.eqb PORT) (ports_in_use s)); [reflexivity|].
  destruct (interrupt s); reflexivity.
Qed.

End ScriptFacts.

(** C6, as first stated, fails where port 8000 is taken: the bind does fail
    with an uncaught error and is not tried again, but the line announcing
    the server is on standard output by then. *)
Lemma port_taken_after_announcement :
  let s := Sample.host [] [] [8000%Z] in
  let run := Script.main s in
  ~ (In Script.PORT (ports_in_use s) ->
     Script.result run = Script.Uncaught (Script.OSError "Address already in use")
     /\ ~ In "서버 시작: http://localhost:8000" (Script.stdout (Script.trace run))
     /\ Script.binds (Script.trace run) = [("", Script.PORT)]).
Proof.
  cbv zeta. intros H.
  destruct H as (_ & Hsilent & _); [now left|].
  apply Hsilent. now left.
Qed.

(** C6, as amended: when port 8000 is taken, the three start-up lines are
    printed first; then the one bind, on port 8000, fails with an [OSError]
    that nothing catches, and the process ends without serving: no second
    bind, no other port. *)
Theorem port_taken_fails_after_printing (s : System) :
  In Script.PORT (ports_in_use s) ->
  let run := Script.main s in
  Script.trace run =
    [Script.Print "서버 시작: http://localhost:8000";
     Script.Print "이 서버는 Vercel 배포 환경과 유사한 조건으로 실행됩니다.";
     Script.Print "Ctrl+C로 종료하세요.";
     Script.Bind "" 8000]
  /\ Script.result run =
       Script.Uncaught (Script.OSError "Address already in use")
  /\ Script.binds (Script.trace run) = [("", Script.PORT)]
  /\ existsb Script.is_serve (Script.trace run) = false.
Proof.
  intros H run. subst run. rewrite ScriptFacts.main_run.
  rewrite (ScriptFacts.port_taken s H). repeat split.
Qed.

Lemma port_taken_fails_after_printing_witness :
  let s := Sample.host [] [] [8000%Z] in
  In Script.PORT (ports_in_use s)
  /\ Script.result (Script.main s) =
       Script.Uncaught (Script.OSError "Address already in use")
  /\ Script.stdout (Script.trace (Script.main s)) =
       ["서버 시작: http://localhost:8000";
        "이 서버는 Vercel 배포 환경과 유사한 조건으로 실행됩니다.";
        "Ctrl+C로 종료하세요."].
Proof.
  cbv zeta. split; [now left|].
  pose proof (port_taken_fails_after_printing
                (Sample.host [] [] [8000%Z]) (or_introl eq_refl)) as H.
  cbv zeta in H. destruct H as (Ht & Hr & _).
  split; [exact Hr|]. now rewrite Ht.
Defined.

(** C7: every start-up prints three lines and no more: the line announcing
    the URL, the note on the emulated hosting, and the instruction to stop
    with Ctrl+C; they come before the bind, and nothing is printed after. *)
Theorem startup_prints_three_lines (s : System) :
  Script.stdout (Script.trace (Script.main s)) =
    ["서버 시작: http://localhost:8000";
     "이 서버는 Vercel 배포 환경과 유사한 조건으로 실행됩니다.";
     "Ctrl+C로 종료하세요."]
  /\ exists rest,
       Script.trace (Script.main s) =
         (Script.Print "서버 시작: http://localhost:8000"
          :: Script.Print "이 서버는 Vercel 배포 환경과 유사한 조건으로 실행됩니다."
          :: Script.Print "Ctrl+C로 종료하세요."
          :: Script.Bind "" Script.PORT :: rest)
       /\ existsb Script.is_print rest = false.
Proof.
  rewrite ScriptFacts.main_run.
  destruct (existsb (Z.eqb Script.PORT) (ports_in_use s));
    [|destruct (interrupt s)];
    (split; [reflexivity | eexists; split; reflexivity]).
Qed.

(** C9: the overrides and the script read neither the command line nor the
    environment.  In two runs with the same working directory and the same
    files, where the base handler answers alike, [guess_type] returns the
    same type for the same path and [end_headers] leaves the same handler
    and the same bytes on the wire; with the same sockets and the same
    interrupt, the script behaves the same. *)
Theorem runs_agree (mimetypes : System -> string -> string) :
  (forall s1 s2 path, cwd s1 = cwd s2 -> files s1 = files s2 ->
                      mimetypes s1 path = mimetypes s2 path) ->
  forall w1 w2 : Wire.World,
    cwd (Wire.sys w1) = cwd (Wire.sys w2) ->
    files (Wire.sys w1) = files (Wire.sys w2) ->
    Wire.self w1 = Wire.self w2 ->
    let Base := Wire.Base mimetypes in
    (forall path,
        evalState (guess_type path) w1 = evalState (guess_type path) w2
        /\ Wire.self (execState (guess_type path) w1) =
           Wire.self (execState (guess_type path) w2))
    /\ Wire.self (execState end_headers w1) =
       Wire.self (execState end_headers w2)
    /\ Wire.written w1 (execState end_headers w1) =
       Wire.written w2 (execState end_headers w2)
    /\ (ports_in_use (Wire.sys w1) = ports_in_use (Wire.sys w2) ->
        interrupt (Wire.sys w1) = interrupt (Wire.sys w2) ->
        Script.main (Wire.sys w1) = Script.main (Wire.sys w2)).
Proof.
  intros Hbase w1 w2 Hcwd Hfiles Hself Base. subst Base.
  repeat split.
  - unfold evalState. rewrite !guess_type_run. simpl.
    now rewrite (Hbase _ _ path Hcwd Hfiles).
  - unfold execState. rewrite !guess_type_run. exact Hself.
  - unfold execState. rewrite !end_headers_run. simpl. now rewrite Hself.
  - rewrite !end_headers_written. now rewrite Hself.
  - intros Hports Hint. rewrite !ScriptFacts.main_run.
    now rewrite Hports, Hint.
Qed.

Lemma runs_agree_witness :
  let s1 := Sample.host ["local-server.py"; "--port"; "9000"]
                        [("PORT", "9000"); ("NODE_ENV", "production")] [] in
  let s2 := Sample.host ["local-server.py"] [] [] in
  let w1 := Sample.world s1 Sample.ok_head in
  let w2 := Sample.world s2 Sample.ok_head in
  let Base := Wire.Base Sample.mimetypes in
  argv s1 <> argv s2 /\ environ s1 <> environ s2
  /\ cwd s1 = cwd s2 /\ files s1 = files s2
  /\ evalState (guess_type "/script.js") w1
     = evalState (guess_type "/script.js") w2
  /\ Wire.self (execState end_headers w1) = Wire.self (execState end_headers w2)
  /\ Script.main s1 = Script.main s2.
Proof.
  cbv zeta.
  split; [discriminate|]. split; [discriminate|].
  split; [reflexivity|]. split; [reflexivity|].
  pose proof (runs_agree Sample.mimetypes (fun _ _ _ _ _ => eq_refl)
                (Sample.world
                   (Sample.host ["local-server.py"; "--port"; "9000"]
                                [("PORT", "9000"); ("NODE_ENV", "production")]
                                [])
                   Sample.ok_head)
                (Sample.world (Sample.host ["local-server.py"] [] [])
                              Sample.ok_head)
                eq_refl eq_refl eq_refl) as H.
  cbv zeta in H. destruct H as (Hg & He & _ & Hm).
  split; [exact (proj1 (Hg "/script.js"))|].
  split; [exact He | exact (Hm eq_refl eq_refl)].
Defined.

(** * Further properties of the handler and of the script *)

(** ** More on strings *)
Module PyStrMore.
Import PyStr PyStrFacts.

Lemma substring_app_skip (p q : string) (n m : nat) :
  substring (String.length p + n) m (p ++ q) = substring n m q.
Proof. induction p as [|a p IH]; simpl; [reflexivity | exact IH]. Qed.

(** Only the tail of a string matters to [endswith], once the tail is as
    long as the suffix looked for. *)
Lemma endswith_app (stem tail suffix : string) :
  String.length suffix <= String.length tail ->
  endswith (stem ++ tail) suffix = endswith tail suffix.
Proof.
  intros H. unfold endswith. rewrite length_app.
  replace (String.length stem + String.length tail - String.length suffix)
    with (String.length stem + (String.length tail - String.length suffix))
    by lia.
  rewrite substring_app_skip.
  destruct (Nat.leb_spec (String.length suffix) (String.length tail)); [|lia].
  destruct (Nat.leb_spec (String.length suffix)
                         (String.length stem + String.length tail)); [|lia].
  reflexivity.
Qed.

Lemma endswith_same_length (tail suffix : string) :
  String.length tail = String.length suffix ->
  endswith tail suffix = String.eqb tail suffix.
Proof.
  intros H. unfold endswith. rewrite H, Nat.sub_diag, Nat.leb_refl.
  rewrite <- H, substring_all. reflexivity.
Qed.

Lemma len_app (p q : string) : len (p ++ q) = len p + len q.
Proof.
  induction p as [|a p IH]; simpl; [reflexivity|]. rewrite IH. lia.
Qed.

(** Ending in [.js] takes three characters at least. *)
Lemma endswith_js_few_characters (path : string) :
  len path < 3 -> endswith path ".js" = false.
Proof.
  intros H. destruct (endswith path ".js") eqn:E; [|reflexivity].
  apply endswith_iff in E as [stem ->].
  rewrite len_app in H. simpl in H. lia.
Qed.

End PyStrMore.

(** ** Content-type inference: the edges of the suffix test *)
Section GuessTypeEdges.

Variable mimetypes : System -> string -> string.

(** X1: a path of fewer than three characters, the empty path among them
    and whatever the characters are, is too short to end in [.js]: the test
    is false, nothing is raised, and the answer is the default guess. *)
Theorem guess_type_short_path (w : Wire.World) (path : string) :
  PyStr.len path < 3 ->
  runState (guess_type (Base := Wire.Base mimetypes) path) w =
  (mimetypes (Wire.sys w) path, w).
Proof.
  intros H. rewrite guess_type_run.
  now rewrite (PyStrMore.endswith_js_few_characters path H).
Qed.

(** X2: only the last three characters of the path decide, and they are
    compared as they stand: when they are anything but [.js] (as [.JS],
    [.Js], [mjs], [jsx], [son]), the answer is the default guess, whatever
    comes before them. *)
Theorem guess_type_last_three (w : Wire.World) (stem tail : string) :
  String.length tail = 3 ->
  tail <> ".js" ->
  runState (guess_type (Base := Wire.Base mimetypes) (stem ++ tail)) w =
  (mimetypes (Wire.sys w) (stem ++ tail), w).
Proof.
  intros Hlen Hne. rewrite guess_type_run.
  rewrite (PyStrMore.endswith_app stem tail ".js") by (rewrite Hlen; simpl; lia).
  rewrite (PyStrMore.endswith_same_length tail ".js" Hlen).
  now rewrite (proj2 (String.eqb_neq tail ".js") Hne).
Qed.

(** X3: for every path, ending in [.js] or not, [guess_type] calls the base
    inference exactly once, on the path as received, and calls no other base
    method; on a path ending in [.js] the base answer is dropped. *)
Theorem guess_type_consults_base_once (table : string -> string)
        (path : string) :
  let run := @guess_type Recorded.Calls Recorded.Monad_Calls
                         (Recorded.Base table) path in
  Recorded.calls run = [Recorded.Super_guess_type path]
  /\ snd run = if PyStr.endswith path ".js" then "application/javascript"
               else table path.
Proof.
  cbv zeta. unfold guess_type. simpl.
  destruct (PyStr.endswith path ".js"); split; reflexivity.
Qed.

End GuessTypeEdges.

Lemma guess_type_short_path_witness :
  PyStr.len "한" < 3 /\ PyStr.len "" < 3 /\ PyStr.len "js" < 3
  /\ evalState (guess_type (Base := Wire.Base Sample.mimetypes) "한")
               (Sample.world (Sample.host [] [] []) Sample.ok_head)
     = "application/octet-stream".
Proof.
  split; [simpl; lia|]. split; [simpl; lia|]. split; [simpl; lia|].
  unfold evalState.
  rewrite (guess_type_short_path Sample.mimetypes
             (Sample.world (Sample.host [] [] []) Sample.ok_head) "한");
    [reflexivity | simpl; lia].
Defined.

Lemma guess_type_last_three_witness :
  String.length ".JS" = 3 /\ ".JS" <> ".js"
  /\ evalState (guess_type (Base := Wire.Base Sample.mimetypes)
                           ("/static/APP" ++ ".JS"))
               (Sample.world (Sample.host [] [] []) Sample.ok_head)
     = "text/javascript".
Proof.
  split; [reflexivity|]. split; [discriminate|].
  unfold evalState.
  rewrite (guess_type_last_three Sample.mimetypes
             (Sample.world (Sample.host [] [] []) Sample.ok_head)
             "/static/APP" ".JS" eq_refl);
    [reflexivity | discriminate].
Defined.

(** ** Finalizing the headers: what is already queued, and calling again *)
Section EndHeadersEdges.

Variable mimetypes : System -> string -> string.

Let finalize : state Wire.World unit :=
  end_headers (Base := Wire.Base mimetypes).

(** X4: [end_headers] does not look at what is queued.  Whatever lines of a
    security header the base handler queued stay, and the fixed line comes
    after them: a queued [X-Frame-Options] gives a response with two. *)
Theorem end_headers_adds_to_queued_security_headers
        (w : Wire.World) (hs : list string) (body : string) :
  Wire._headers_buffer (Wire.self w) = map (fun l => l ++ PyStr.CRLF) hs ->
  forallb Client.is_text hs = true ->
  let sent :=
    Client.headers (Wire.written w (execState finalize w) ++ body) in
  filter (Client.is_header "X-Content-Type-Options") sent =
    (filter (Client.is_header "X-Content-Type-Options") hs
     ++ ["X-Content-Type-Options: nosniff"])%list
  /\ filter (Client.is_header "X-Frame-Options") sent =
       (filter (Client.is_header "X-Frame-Options") hs
        ++ ["X-Frame-Options: DENY"])%list
  /\ filter (Client.is_header "X-XSS-Protection") sent =
       (filter (Client.is_header "X-XSS-Protection") hs
        ++ ["X-XSS-Protection: 1; mode=block"])%list.
Proof.
  intros Hbuf Htext sent. subst sent. unfold finalize.
  rewrite (end_headers_read_back mimetypes w hs body Hbuf Htext), !filter_app.
  repeat split.
Qed.

(** X5: a client reads the lines of the base handler first, in their order,
    and the three security headers last; a header of any other name is read
    back exactly as the base handler queued it. *)
Theorem end_headers_keeps_other_headers
        (w : Wire.World) (hs : list string) (body name : string) :
  Wire._headers_buffer (Wire.self w) = map (fun l => l ++ PyStr.CRLF) hs ->
  forallb Client.is_text hs = true ->
  existsb (Client.is_header name)
          ["X-Content-Type-Options: nosniff"; "X-Frame-Options: DENY";
           "X-XSS-Protection: 1; mode=block"] = false ->
  let sent :=
    Client.headers (Wire.written w (execState finalize w) ++ body) in
  sent = (hs ++ ["X-Content-Type-Options: nosniff"; "X-Frame-Options: DENY";
                 "X-XSS-Protection: 1; mode=block"])%list
  /\ filter (Client.is_header name) sent = filter (Client.is_header name) hs.
Proof.
  intros Hbuf Htext Hname sent. subst sent. unfold finalize.
  rewrite (end_headers_read_back mimetypes w hs body Hbuf Htext).
  split; [reflexivity|].
  rewrite filter_app. simpl in Hname.
  apply orb_false_iff in Hname as [H1 Hname].
  apply orb_false_iff in Hname as [H2 Hname].
  apply orb_false_iff in Hname as [H3 _].
  simpl filter at 2. rewrite H1, H2, H3. apply List.app_nil_r.
Qed.

(** X6: [end_headers] flushes the buffer, so a second call finds it empty
    and writes a block of its own: the three security headers and the blank
    line again, after the first block. *)
Theorem end_headers_twice (w : Wire.World) :
  let w1 := execState finalize w in
  let w2 := execState finalize w1 in
  Wire.written w1 w2 =
    "X-Content-Type-Options: nosniff" ++ PyStr.CRLF
    ++ "X-Frame-Options: DENY" ++ PyStr.CRLF
    ++ "X-XSS-Protection: 1; mode=block" ++ PyStr.CRLF
    ++ PyStr.CRLF
  /\ execState (finalize ;; finalize) w = w2
  /\ Wire.wfile (Wire.self w2) =
       Wire.wfile (Wire.self w1) ++ Wire.written w1 w2.
Proof.
  cbv zeta. unfold finalize. split; [|split].
  - rewrite end_headers_written. unfold execState.
    rewrite end_headers_run. reflexivity.
  - reflexivity.
  - rewrite end_headers_written. unfold execState.
    rewrite !end_headers_run. reflexivity.
Qed.

Lemma guess_type_js_run (w : Wire.World) (stem : string) :
  runState (guess_type (Base := Wire.Base mimetypes) (stem ++ ".js")) w =
  ("application/javascript", w).
Proof.
  rewrite guess_type_run.
  rewrite (PyStrMore.endswith_app stem ".js" ".js") by (simpl; lia).
  reflexivity.
Qed.

(** X7: the two overrides together.  When the type inferred for a path
    ending in [.js] is queued as [Content-type] and the headers are then
    finalized, a client reads [Content-type: application/javascript] after
    the lines queued before and ahead of the three security headers. *)
Theorem js_response_content_type
        (w : Wire.World) (hs : list string) (stem body : string) :
  Wire._headers_buffer (Wire.self w) = map (fun l => l ++ PyStr.CRLF) hs ->
  forallb Client.is_text hs = true ->
  let Base := Wire.Base mimetypes in
  let respond : state Wire.World unit :=
    ctype <- guess_type (stem ++ ".js") ;;
    send_header "Content-type" ctype ;;
    end_headers in
  Client.headers (Wire.written w (execState respond w) ++ body) =
  (hs ++ ["Content-type: application/javascript";
          "X-Content-Type-Options: nosniff"; "X-Frame-Options: DENY";
          "X-XSS-Protection: 1; mode=block"])%list.
Proof.
  intros Hbuf Htext Base respond. subst respond Base.
  set (w' := Wire.queue
               (Wire.header_line "Content-type" "application/javascript") w).
  assert (Hrun : execState
                   (ctype <- guess_type (Base := Wire.Base mimetypes)
                                        (stem ++ ".js") ;;
                    send_header (SimpleHTTPRequestHandler := Wire.Base mimetypes)
                                "Content-type" ctype ;;
                    end_headers (Base := Wire.Base mimetypes)) w
                 = execState finalize w').
  { unfold execState. cbn [bind Monad_state runState].
    rewrite guess_type_js_run. reflexivity. }
  rewrite Hrun. unfold finalize.
  change (Wire.written w (execState (end_headers (Base := Wire.Base mimetypes))
                                    w'))
    with (Wire.written w' (execState (end_headers
                                        (Base := Wire.Base mimetypes)) w')).
  rewrite (end_headers_read_back mimetypes w'
             (hs ++ ["Content-type: application/javascript"]) body).
  - now rewrite <- List.app_assoc.
  - subst w'. simpl. rewrite Hbuf, map_app. reflexivity.
  - rewrite forallb_app, Htext. reflexivity.
Qed.

End EndHeadersEdges.

Lemma end_headers_adds_to_queued_security_headers_witness :
  let hs := Sample.framed_head in
  let w := Sample.world (Sample.host [] [] []) hs in
  forallb Client.is_text hs = true
  /\ filter (Client.is_header "X-Frame-Options")
       (Client.headers
          (Wire.written w
             (execState (end_headers (Base := Wire.Base Sample.mimetypes)) w)
           ++ "<html></html>")) =
     ["X-Frame-Options: SAMEORIGIN"; "X-Frame-Options: DENY"].
Proof.
  cbv zeta. split; [reflexivity|].
  exact (proj1 (proj2 (end_headers_adds_to_queued_security_headers
                         Sample.mimetypes
                         (Sample.world (Sample.host [] [] [])
                                       Sample.framed_head)
                         Sample.framed_head "<html></html>"
                         eq_refl eq_refl))).
Defined.

Lemma end_headers_keeps_other_headers_witness :
  let hs := Sample.not_found_head in
  let w := Sample.world (Sample.host [] [] []) hs in
  forallb Client.is_text hs = true
  /\ existsb (Client.is_header "content-type")
             ["X-Content-Type-Options: nosniff"; "X-Frame-Options: DENY";
              "X-XSS-Protection: 1; mode=block"] = false
  /\ filter (Client.is_header "content-type")
       (Client.headers
          (Wire.written w
             (execState (end_headers (Base := Wire.Base Sample.mimetypes)) w)
           ++ Sample.not_found_body)) =
     ["Content-Type: text/html;charset=utf-8"].
Proof.
  cbv zeta. split; [reflexivity|]. split; [reflexivity|].
  exact (proj2 (end_headers_keeps_other_headers
                  Sample.mimetypes
                  (Sample.world (Sample.host [] [] []) Sample.not_found_head)
                  Sample.not_found_head Sample.not_found_body "content-type"
                  eq_refl eq_refl eq_refl)).
Defined.

Lemma js_response_content_type_witness :
  let hs := ["HTTP/1.0 200 OK"; "Server: SimpleHTTP/0.6 Python/3.11.2"] in
  let w := Sample.world (Sample.host [] [] []) hs in
  let Base := Wire.Base Sample.mimetypes in
  forallb Client.is_text hs = true
  /\ Client.headers
       (Wire.written w
          (execState (ctype <- guess_type ("/script" ++ ".js") ;;
                      send_header "Content-type" ctype ;;
                      end_headers) w)
        ++ "console.log(1);") =
     ["HTTP/1.0 200 OK"; "Server: SimpleHTTP/0.6 Python/3.11.2";
      "Content-type: application/javascript";
      "X-Content-Type-Options: nosniff"; "X-Frame-Options: DENY";
      "X-XSS-Protection: 1; mode=block"].
Proof.
  cbv zeta. split; [reflexivity|].
  exact (js_response_content_type
           Sample.mimetypes
           (Sample.world (Sample.host [] [] [])
              ["HTTP/1.0 200 OK"; "Server: SimpleHTTP/0.6 Python/3.11.2"])
           ["HTTP/1.0 200 OK"; "Server: SimpleHTTP/0.6 Python/3.11.2"]
           "/script" "console.log(1);" eq_refl eq_refl).
Defined.

(** ** Runs of the script: a free port, and every run *)
Module ScriptMore.
Import Script.

Lemma port_free (s : System) :
  ~ In PORT (ports_in_use s) ->
  existsb (Z.eqb PORT) (ports_in_use s) = false.
Proof.
  intros H. destruct (existsb (Z.eqb PORT) (ports_in_use s)) eqn:E;
    [|reflexivity].
  exfalso. apply H. apply existsb_exists in E as (p & Hin & Hp).
  apply Z.eqb_eq in Hp. now subst p.
Qed.

Lemma port_taken_iff (s : System) :
  existsb (Z.eqb PORT) (ports_in_use s) = true <-> In PORT (ports_in_use s).
Proof.
  split.
  - intros E. apply existsb_exists in E as (p & Hin & Hp).
    apply Z.eqb_eq in Hp. now subst p.
  - apply ScriptFacts.port_taken.
Qed.

End ScriptMore.

(** X8: when port 8000 is free, the script prints its three lines, binds
    once and enters the serve loop, which it leaves only by an interrupt;
    then the [with] statement closes the server and the
    [KeyboardInterrupt] goes uncaught.  With no interrupt the loop runs on
    and the server is never closed. *)
Theorem port_free_serves_until_interrupt (s : System) :
  ~ In Script.PORT (ports_in_use s) ->
  let run := Script.main s in
  Script.trace run =
    ([Script.Print "서버 시작: http://localhost:8000";
      Script.Print "이 서버는 Vercel 배포 환경과 유사한 조건으로 실행됩니다.";
      Script.Print "Ctrl+C로 종료하세요.";
      Script.Bind "" 8000;
      Script.Serve_forever]
     ++ (if interrupt s then [Script.Server_close] else []))%list
  /\ Script.result run =
       (if interrupt s then Script.Uncaught Script.KeyboardInterrupt
        else Script.Forever).
Proof.
  intros H run. subst run. rewrite ScriptFacts.main_run.
  rewrite (ScriptMore.port_free s H).
  destruct (interrupt s); split; reflexivity.
Qed.

Lemma port_free_serves_until_interrupt_witness :
  let s := Sample.host [] [] [8080%Z; 3000%Z] in
  ~ In Script.PORT (ports_in_use s)
  /\ Script.result (Script.main s) =
       Script.Uncaught Script.KeyboardInterrupt
  /\ In Script.Server_close (Script.trace (Script.main s)).
Proof.
  cbv zeta.
  assert (Hfree : ~ In Script.PORT
                      (ports_in_use (Sample.host [] [] [8080%Z; 3000%Z]))).
  { simpl. intros [H | [H | []]]; discriminate H. }
  split; [exact Hfree|].
  pose proof (port_free_serves_until_interrupt
                (Sample.host [] [] [8080%Z; 3000%Z]) Hfree) as H.
  cbv zeta in H. destruct H as [Ht Hr].
  split; [exact Hr|]. rewrite Ht. simpl. tauto.
Defined.

Ltac split_cases :=
  repeat match goal with
         | H : _ \/ _ |- _ => destruct H
         | H : _ /\ _ |- _ => destruct H
         | H : False |- _ => destruct H
         end.

(** X9: in every run the script makes one bind attempt, on all interfaces
    and port 8000, and none on another port; it enters the serve loop
    exactly when that port is free, and never returns normally: a run ends
    by an uncaught exception or not at all. *)
Theorem script_binds_once_and_never_returns (s : System) :
  let run := Script.main s in
  Script.binds (Script.trace run) = [("", 8000%Z)]
  /\ (In Script.Serve_forever (Script.trace run) <->
      ~ In Script.PORT (ports_in_use s))
  /\ (forall a, Script.result run <> Script.Done a).
Proof.
  cbv zeta. rewrite ScriptFacts.main_run.
  pose proof (ScriptMore.port_taken_iff s) as Hiff.
  destruct (existsb (Z.eqb Script.PORT) (ports_in_use s)) eqn:E.
  - assert (Hin : In Script.PORT (ports_in_use s)) by now apply Hiff.
    repeat split; intros; simpl in *; split_cases;
      try discriminate; try contradiction.
  - assert (Hout : ~ In Script.PORT (ports_in_use s)).
    { intros Hin. apply Hiff in Hin. discriminate Hin. }
    destruct (interrupt s); repeat split; intros; simpl in *; split_cases;
      try discriminate; try contradiction; tauto.
Qed.
